(** * h2ogpt_client.core: the text-completion request builder

  A shallow embedding of [client/h2ogpt_client/core.py]: the two
  enumerations, the [Client] wrapper around the gradio transport and the
  two request-issuing methods of [TextCompletion]. *)

From Stdlib Require Import String List ZArith Bool Lia.
From Stdlib Require Import PrimFloat.
Import ListNotations.
Set Warnings "-register-all".
Local Open Scope string_scope.
Local Open Scope list_scope.

(** ** Enumerations *)

Inductive PromptType : Set :=
| DAI_FAQ
| HUMAN_BOT
| HUMAN_BOT_ORIGINAL
| INSTRUCT
| INSTRUCT_SIMPLE
| INSTRUCT_VICUNA
| INSTRUCT_WITH_END
| OPEN_ASSISTANT
| PLAIN
| PROMPT_ANSWER
| QUALITY
| SIMPLE_INSTRUCT
| SUMMARIZE
| WIZARD_LM
| WIZARD_MEGA.

Inductive LangChainMode : Set :=
| ALL
| CHAT_LLM
| DISABLED
| GITHUB_H2OGPT
| H2O_DAI_DOCS
| LLM
| MY_DATA
| USER_DATA
| WIKI
| WIKI_FULL.

Module PromptTypeEnum.

(** The [.value] of a member. *)
Definition value (m : PromptType) : string :=
  match m with
  | DAI_FAQ => "dai_faq"
  | HUMAN_BOT => "human_bot"
  | HUMAN_BOT_ORIGINAL => "human_bot_orig"
  | INSTRUCT => "instruct"
  | INSTRUCT_SIMPLE => "instruct_simple"
  | INSTRUCT_VICUNA => "instruct_vicuna"
  | INSTRUCT_WITH_END => "instruct_with_end"
  | OPEN_ASSISTANT => "open_assistant"
  | PLAIN => "plain"
  | PROMPT_ANSWER => "prompt_answer"
  | QUALITY => "quality"
  | SIMPLE_INSTRUCT => "simple_instruct"
  | SUMMARIZE => "summarize"
  | WIZARD_LM => "wizard_lm"
  | WIZARD_MEGA => "wizard_mega"
  end.

(** The members in definition order, as iterating the class yields them. *)
Definition members : list PromptType :=
  [DAI_FAQ; HUMAN_BOT; HUMAN_BOT_ORIGINAL; INSTRUCT; INSTRUCT_SIMPLE;
   INSTRUCT_VICUNA; INSTRUCT_WITH_END; OPEN_ASSISTANT; PLAIN; PROMPT_ANSWER;
   QUALITY; SIMPLE_INSTRUCT; SUMMARIZE; WIZARD_LM; WIZARD_MEGA].

Definition tags : list string := map value members.

End PromptTypeEnum.

Module LangChainModeEnum.

Definition value (m : LangChainMode) : string :=
  match m with
  | ALL => "All"
  | CHAT_LLM => "ChatLLM"
  | DISABLED => "Disabled"
  | GITHUB_H2OGPT => "github h2oGPT"
  | H2O_DAI_DOCS => "DriverlessAI docs"
  | LLM => "LLM"
  | MY_DATA => "MyData"
  | USER_DATA => "UserData"
  | WIKI => "wiki"
  | WIKI_FULL => "wiki_full"
  end.

Definition members : list LangChainMode :=
  [ALL; CHAT_LLM; DISABLED; GITHUB_H2OGPT; H2O_DAI_DOCS; LLM; MY_DATA;
   USER_DATA; WIKI; WIKI_FULL].

Definition tags : list string := map value members.

End LangChainModeEnum.

(** ** Python values

  The methods are dynamically typed: the annotations of [create] are not
  enforced, so a parameter can hold any object.  [PyObject] is an instance
  of some other class, given by its attribute dictionary. *)

Inductive pyval : Type :=
| PyNone
| PyBool (b : bool)
| PyInt (z : Z)
| PyFloat (f : float)
| PyStr (s : string)
| PyList (l : list pyval)
| PyPromptType (m : PromptType)
| PyLangChainMode (m : LangChainMode)
| PyObject (attrs : list (string * pyval)).

(** Attribute dictionaries keep insertion order; lookup finds the first
    binding of the name. *)
Fixpoint lookup_attr (name : string) (attrs : list (string * pyval))
  : option pyval :=
  match attrs with
  | [] => None
  | (k, v) :: rest => if String.eqb name k then Some v else lookup_attr name rest
  end.

(** [o.value]: enumeration members carry their tag; an arbitrary object has
    the attribute when its dictionary binds it; [None], booleans, numbers,
    strings and lists have no attribute of that name. *)
Definition value_attr (o : pyval) : option pyval :=
  match o with
  | PyPromptType m => Some (PyStr (PromptTypeEnum.value m))
  | PyLangChainMode m => Some (PyStr (LangChainModeEnum.value m))
  | PyObject attrs => lookup_attr "value" attrs
  | PyNone | PyBool _ | PyInt _ | PyFloat _ | PyStr _ | PyList _ => None
  end.

Definition is_PromptType (o : pyval) : bool :=
  match o with PyPromptType _ => true | _ => false end.

Definition is_LangChainMode (o : pyval) : bool :=
  match o with PyLangChainMode _ => true | _ => false end.

(** ** Effects: exceptions, the transport's events, the threaded state *)

Inductive exn : Type :=
| AttributeError (obj : pyval) (name : string)
| RemoteError (msg : string).

(** What the gradio transport is asked to do, in program order. *)
Inductive event : Type :=
| Submit (args : list pyval) (api_name : string)
| JobResult
| WrapFuture
| Await.

Inductive outcome : Type :=
| Done (output : pyval)
| Raised (msg : string).

(** The handle [gradio_client.Client(src=..., hf_token=..., verbose=...)]. *)
Record GradioClient : Type := mkGradioClient {
  src : string;
  hf_token : option string;
  verbose : bool
}.

(** A submitted job, with what it resolves to. *)
Record Job : Type := mkJob {
  job_outcome : outcome
}.

(** [self._client] of a [Client]. *)
Record Client : Type := mkClient {
  Client_client : GradioClient
}.

(** [self._client] of a [TextCompletion]. *)
Record TextCompletion : Type := mkTextCompletion {
  TextCompletion_client : Client
}.

(** A method runs on its receiver [self] and on the transport's trace, and
    returns both, with a value or a raised exception. *)
Record world (S : Type) : Type := mkWorld {
  self : S;
  trace : list event
}.
Arguments mkWorld {S} _ _.
Arguments self {S} _.
Arguments trace {S} _.

Definition M (S A : Type) : Type := world S -> (exn + A) * world S.

Definition ret {S A} (a : A) : M S A := fun w => (inr a, w).

Definition raise {S A} (e : exn) : M S A := fun w => (inl e, w).

Definition bind {S A B} (m : M S A) (k : A -> M S B) : M S B :=
  fun w =>
    match m w with
    | (inr a, w') => k a w'
    | (inl e, w') => (inl e, w')
    end.

Notation "x <- m ;; k" := (bind m (fun x => k))
  (at level 61, m at next level, right associativity).

Definition get_self {S} : M S S := fun w => (inr (self w), w).

Definition emit {S} (e : event) : M S unit :=
  fun w => (inr tt, mkWorld (self w) (trace w ++ [e])).

Definition history {S} : M S (list event) := fun w => (inr (trace w), w).

(** Runs a method of the [Client] held by a [TextCompletion]; the client is
    shared, so what the method leaves in it is what the holder sees. *)
Definition on_client {A} (m : M Client A) : M TextCompletion A :=
  fun w =>
    let '(r, w') := m (mkWorld (TextCompletion_client (self w)) (trace w)) in
    (r, mkWorld (mkTextCompletion (self w')) (trace w')).

(** [o.value], raising [AttributeError] when [o] has no such attribute. *)
Definition get_value {S} (o : pyval) : M S pyval :=
  match value_attr o with
  | Some v => ret v
  | None => raise (AttributeError o "value")
  end.

Definition default (d : pyval) (o : option pyval) : pyval :=
  match o with
  | Some v => v
  | None => d
  end.

(** Python's inexact literal [1.07] denotes the nearest binary64 value. *)
Set Warnings "-inexact-float".
Definition float_1_07 : float := 1.07%float.
Set Warnings "+inexact-float".

(** ** Calls and parameter binding *)

(** A call of [create] or [create_async]: [prompt] is required, every other
    parameter is either given or left to its default. *)
Record call : Type := mkCall {
  arg_prompt : pyval;
  arg_prompt_type : option pyval;
  arg_input_context_for_instruction : option pyval;
  arg_enable_sampler : option pyval;
  arg_temperature : option pyval;
  arg_top_p : option pyval;
  arg_top_k : option pyval;
  arg_beams : option pyval;
  arg_early_stopping : option pyval;
  arg_min_output_length : option pyval;
  arg_max_output_length : option pyval;
  arg_max_time : option pyval;
  arg_repetition_penalty : option pyval;
  arg_number_returns : option pyval;
  arg_system_pre_context : option pyval;
  arg_langchain_mode : option pyval
}.

(** The parameters as the body sees them, once bound. *)
Record params : Type := mkParams {
  prompt : pyval;
  prompt_type : pyval;
  input_context_for_instruction : pyval;
  enable_sampler : pyval;
  temperature : pyval;
  top_p : pyval;
  top_k : pyval;
  beams : pyval;
  early_stopping : pyval;
  min_output_length : pyval;
  max_output_length : pyval;
  max_time : pyval;
  repetition_penalty : pyval;
  number_returns : pyval;
  system_pre_context : pyval;
  langchain_mode : pyval
}.

(** The signature of [create] (lines 65-83). *)
Definition create_signature (c : call) : params :=
  {| prompt := arg_prompt c;
     prompt_type := default (PyPromptType PLAIN) (arg_prompt_type c);
     input_context_for_instruction :=
       default (PyStr "") (arg_input_context_for_instruction c);
     enable_sampler := default (PyBool false) (arg_enable_sampler c);
     temperature := default (PyFloat 1.0) (arg_temperature c);
     top_p := default (PyFloat 1.0) (arg_top_p c);
     top_k := default (PyInt 40) (arg_top_k c);
     beams := default (PyFloat 1.0) (arg_beams c);
     early_stopping := default (PyBool false) (arg_early_stopping c);
     min_output_length := default (PyInt 0) (arg_min_output_length c);
     max_output_length := default (PyInt 128) (arg_max_output_length c);
     max_time := default (PyInt 180) (arg_max_time c);
     repetition_penalty := default (PyFloat float_1_07) (arg_repetition_penalty c);
     number_returns := default (PyInt 1) (arg_number_returns c);
     system_pre_context := default (PyStr "") (arg_system_pre_context c);
     langchain_mode := default (PyLangChainMode DISABLED) (arg_langchain_mode c) |}.

(** The signature of [create_async] (lines 150-168). *)
Definition create_async_signature (c : call) : params :=
  {| prompt := arg_prompt c;
     prompt_type := default (PyPromptType PLAIN) (arg_prompt_type c);
     input_context_for_instruction :=
       default (PyStr "") (arg_input_context_for_instruction c);
     enable_sampler := default (PyBool false) (arg_enable_sampler c);
     temperature := default (PyFloat 1.0) (arg_temperature c);
     top_p := default (PyFloat 1.0) (arg_top_p c);
     top_k := default (PyInt 40) (arg_top_k c);
     beams := default (PyFloat 1.0) (arg_beams c);
     early_stopping := default (PyBool false) (arg_early_stopping c);
     min_output_length := default (PyInt 0) (arg_min_output_length c);
     max_output_length := default (PyInt 128) (arg_max_output_length c);
     max_time := default (PyInt 180) (arg_max_time c);
     repetition_penalty := default (PyFloat float_1_07) (arg_repetition_penalty c);
     number_returns := default (PyInt 1) (arg_number_returns c);
     system_pre_context := default (PyStr "") (arg_system_pre_context c);
     langchain_mode := default (PyLangChainMode DISABLED) (arg_langchain_mode c) |}.

(** A call that supplies the prompt and nothing else. *)
Definition only_prompt (p : pyval) : call :=
  {| arg_prompt := p;
     arg_prompt_type := None;
     arg_input_context_for_instruction := None;
     arg_enable_sampler := None;
     arg_temperature := None;
     arg_top_p := None;
     arg_top_k := None;
     arg_beams := None;
     arg_early_stopping := None;
     arg_min_output_length := None;
     arg_max_output_length := None;
     arg_max_time := None;
     arg_repetition_penalty := None;
     arg_number_returns := None;
     arg_system_pre_context := None;
     arg_langchain_mode := None |}.

(** ** The transport and the two classes *)

Section Transport.

(** The remote service behind a handle: what a job resolves to, given the
    requests made so far, the endpoint and the values sent. *)
Variable remote : GradioClient -> list event -> string -> list pyval -> outcome.

(** [handle.submit( *args, api_name=api_name)] of gradio_client. *)
Definition gradio_submit {S} (handle : GradioClient) (args : list pyval)
    (api_name : string) : M S Job :=
  before <- history ;;
  _ <- emit (Submit args api_name) ;;
  ret (mkJob (remote handle before api_name args)).

Definition deliver (o : outcome) : exn + pyval :=
  match o with
  | Done v => inr v
  | Raised msg => inl (RemoteError msg)
  end.

(** [job.result()]: blocks until the job has resolved. *)
Definition job_result {S} (job : Job) : M S pyval :=
  _ <- emit JobResult ;;
  fun w => (deliver (job_outcome job), w).

(** [asyncio.wrap_future(job)]. *)
Definition wrap_future {S} (job : Job) : M S Job :=
  _ <- emit WrapFuture ;;
  ret job.

(** [await future]: the coroutine is suspended until the future resolves. *)
Definition await {S} (future : Job) : M S pyval :=
  _ <- emit Await ;;
  fun w => (deliver (job_outcome future), w).

(** [Client.__init__]. *)
Definition Client_init (server_url : string) (huggingface_token : option string)
  : Client :=
  mkClient (mkGradioClient server_url huggingface_token false).

(** [Client.text_completion]: the [TextCompletion] built on this client by
    [__init__]. *)
Definition text_completion : M Client TextCompletion :=
  this <- get_self ;;
  ret (mkTextCompletion this).

Definition _predict (args : list pyval) (api_name : string) : M Client pyval :=
  this <- get_self ;;
  job <- gradio_submit (Client_client this) args api_name ;;
  job_result job.

Definition _predict_async (args : list pyval) (api_name : string)
  : M Client pyval :=
  this <- get_self ;;
  job <- gradio_submit (Client_client this) args api_name ;;
  future <- wrap_future job ;;
  await future.

Definition create (c : call) : M TextCompletion pyval :=
  let '(mkParams prompt prompt_type input_context_for_instruction
          enable_sampler temperature top_p top_k beams early_stopping
          min_output_length max_output_length max_time repetition_penalty
          number_returns system_pre_context langchain_mode) :=
    create_signature c in
  (* Not exposed parameters. *)
  let instruction := PyStr "" in
  let input := PyStr "" in
  let stream_output := PyBool false in
  let prompt_dict := PyStr "" in
  let chat_mode := PyBool false in
  let langchain_top_k_docs := PyInt 4 in
  let langchain_enable_chunk := PyBool true in
  let langchain_chunk_size := PyInt 512 in
  let langchain_document_choice := PyList [PyStr "All"] in
  prompt_type_value <- get_value prompt_type ;;
  langchain_mode_value <- get_value langchain_mode ;;
  on_client
    (_predict
       [instruction;
        input;
        system_pre_context;
        stream_output;
        prompt_type_value;
        prompt_dict;
        temperature;
        top_p;
        top_k;
        beams;
        max_output_length;
        min_output_length;
        early_stopping;
        max_time;
        repetition_penalty;
        number_returns;
        enable_sampler;
        chat_mode;
        prompt;
        input_context_for_instruction;
        langchain_mode_value;
        langchain_top_k_docs;
        langchain_enable_chunk;
        langchain_chunk_size;
        langchain_document_choice]
       "/submit_nochat").

(** The coroutine of [create_async], driven to completion. *)
Definition create_async (c : call) : M TextCompletion pyval :=
  let '(mkParams prompt prompt_type input_context_for_instruction
          enable_sampler temperature top_p top_k beams early_stopping
          min_output_length max_output_length max_time repetition_penalty
          number_returns system_pre_context langchain_mode) :=
    create_async_signature c in
  (* Not exposed parameters. *)
  let instruction := PyStr "" in
  let input := PyStr "" in
  let stream_output := PyBool false in
  let prompt_dict := PyStr "" in
  let chat_mode := PyBool false in
  let langchain_top_k_docs := PyInt 4 in
  let langchain_enable_chunk := PyBool true in
  let langchain_chunk_size := PyInt 512 in
  let langchain_document_choice := PyList [PyStr "All"] in
  prompt_type_value <- get_value prompt_type ;;
  langchain_mode_value <- get_value langchain_mode ;;
  on_client
    (_predict_async
       [instruction;
        input;
        system_pre_context;
        stream_output;
        prompt_type_value;
        prompt_dict;
        temperature;
        top_p;
        top_k;
        beams;
        max_output_length;
        min_output_length;
        early_stopping;
        max_time;
        repetition_penalty;
        number_returns;
        enable_sampler;
        chat_mode;
        prompt;
        input_context_for_instruction;
        langchain_mode_value;
        langchain_top_k_docs;
        langchain_enable_chunk;
        langchain_chunk_size;
        langchain_document_choice]
       "/submit_nochat").

End Transport.

(** ** Observations on a run *)

(** The requests of a trace, oldest first. *)
Fixpoint submissions (t : list event) : list (list pyval * string) :=
  match t with
  | [] => []
  | Submit args api_name :: t' => (args, api_name) :: submissions t'
  | _ :: t' => submissions t'
  end.

(** What a method adds to the trace [t] when run on receiver [s]. *)
Definition emitted {S A} (m : M S A) (s : S) (t : list event) : list event :=
  skipn (length t) (trace (snd (m (mkWorld s t)))).

(** The value or exception a method ends with. *)
Definition result {S A} (m : M S A) (s : S) (t : list event) : exn + A :=
  fst (m (mkWorld s t)).

(** The receiver as the method leaves it. *)
Definition receiver {S A} (m : M S A) (s : S) (t : list event) : S :=
  self (snd (m (mkWorld s t))).

(** Both enumeration parameters hold members of their annotated class. *)
Definition well_typed (p : params) : bool :=
  is_PromptType (prompt_type p) && is_LangChainMode (langchain_mode p).

(** The positional values of the request, in the order of the call at
    lines 121-148, for the two [.value] results [ptv] and [lmv]. *)
Definition positional (p : params) (ptv lmv : pyval) : list pyval :=
  [PyStr ""; PyStr ""; system_pre_context p; PyBool false; ptv; PyStr "";
   temperature p; top_p p; top_k p; beams p; max_output_length p;
   min_output_length p; early_stopping p; max_time p; repetition_penalty p;
   number_returns p; enable_sampler p; PyBool false; prompt p;
   input_context_for_instruction p; lmv; PyInt 4; PyBool true; PyInt 512;
   PyList [PyStr "All"]].

(** The endpoint both methods name. *)
Definition endpoint : string := "/submit_nochat".

Definition handle_of (tc : TextCompletion) : GradioClient :=
  Client_client (TextCompletion_client tc).

(** ** Fixtures: a service that answers every request, a client, a few calls *)

Definition sample_remote
  : GradioClient -> list event -> string -> list pyval -> outcome :=
  fun _ _ _ _ => Done (PyStr "response").

Definition sample_completion : TextCompletion :=
  mkTextCompletion (Client_init "http://localhost:7860" None).

(** [create(prompt="Hello", prompt_type=PromptType.INSTRUCT, temperature=0.5)]. *)
Definition hello_call : call :=
  {| arg_prompt := PyStr "Hello";
     arg_prompt_type := Some (PyPromptType INSTRUCT);
     arg_input_context_for_instruction := None;
     arg_enable_sampler := None;
     arg_temperature := Some (PyFloat 0.5);
     arg_top_p := None;
     arg_top_k := None;
     arg_beams := None;
     arg_early_stopping := None;
     arg_min_output_length := None;
     arg_max_output_length := None;
     arg_max_time := None;
     arg_repetition_penalty := None;
     arg_number_returns := None;
     arg_system_pre_context := None;
     arg_langchain_mode := None |}.

(** The call [c] with its prompt replaced. *)
Definition with_prompt (q : pyval) (c : call) : call :=
  {| arg_prompt := q;
     arg_prompt_type := arg_prompt_type c;
     arg_input_context_for_instruction := arg_input_context_for_instruction c;
     arg_enable_sampler := arg_enable_sampler c;
     arg_temperature := arg_temperature c;
     arg_top_p := arg_top_p c;
     arg_top_k := arg_top_k c;
     arg_beams := arg_beams c;
     arg_early_stopping := arg_early_stopping c;
     arg_min_output_length := arg_min_output_length c;
     arg_max_output_length := arg_max_output_length c;
     arg_max_time := arg_max_time c;
     arg_repetition_penalty := arg_repetition_penalty c;
     arg_number_returns := arg_number_returns c;
     arg_system_pre_context := arg_system_pre_context c;
     arg_langchain_mode := arg_langchain_mode c |}.

(** The call [c] with its prompt type replaced. *)
Definition with_prompt_type (v : pyval) (c : call) : call :=
  {| arg_prompt := arg_prompt c;
     arg_prompt_type := Some v;
     arg_input_context_for_instruction := arg_input_context_for_instruction c;
     arg_enable_sampler := arg_enable_sampler c;
     arg_temperature := arg_temperature c;
     arg_top_p := arg_top_p c;
     arg_top_k := arg_top_k c;
     arg_beams := arg_beams c;
     arg_early_stopping := arg_early_stopping c;
     arg_min_output_length := arg_min_output_length c;
     arg_max_output_length := arg_max_output_length c;
     arg_max_time := arg_max_time c;
     arg_repetition_penalty := arg_repetition_penalty c;
     arg_number_returns := arg_number_returns c;
     arg_system_pre_context := arg_system_pre_context c;
     arg_langchain_mode := arg_langchain_mode c |}.

(** [create(prompt="Hello", prompt_type=LangChainMode.ALL)]: the prompt type
    is a member of the other enumeration. *)
Definition foreign_member_call : call :=
  with_prompt_type (PyLangChainMode ALL) (only_prompt (PyStr "Hello")).

(** [create(prompt="Hello", prompt_type="plain")]: the prompt type is a tag
    given as text, not a member. *)
Definition text_tag_call : call :=
  with_prompt_type (PyStr "plain") (only_prompt (PyStr "Hello")).

(** ** Properties of a request *)

(** The eight fields that no parameter reaches, at their positions in the
    request: instruction, input, stream_output, prompt_dict, chat_mode,
    langchain_top_k_docs, langchain_enable_chunk, langchain_chunk_size. *)
Definition hidden_fields_fixed (args : list pyval) : Prop :=
  nth_error args 0 = Some (PyStr "") /\
  nth_error args 1 = Some (PyStr "") /\
  nth_error args 3 = Some (PyBool false) /\
  nth_error args 5 = Some (PyStr "") /\
  nth_error args 17 = Some (PyBool false) /\
  nth_error args 21 = Some (PyInt 4) /\
  nth_error args 22 = Some (PyBool true) /\
  nth_error args 23 = Some (PyInt 512).

(** The document choice closes the request and is the one-element list
    [["All"]]. *)
Definition document_choice_all (args : list pyval) : Prop :=
  nth_error args 24 = Some (PyList [PyStr "All"]) /\
  last args PyNone = PyList [PyStr "All"].

(** [P] holds of the values of every request a run has sent. *)
Definition every_request {S A} (P : list pyval -> Prop) (m : M S A) (s : S)
    (t : list event) : Prop :=
  Forall (fun r => P (fst r)) (submissions (emitted m s t)).

(** ** Calls in sequence *)

(** The request a call sends, when its two enumeration arguments have a
    [value] attribute; the two signatures bind alike, so this is the request
    of either method. *)
Definition request_of (c : call) : option (list pyval * string) :=
  match value_attr (prompt_type (create_signature c)),
        value_attr (langchain_mode (create_signature c)) with
  | Some ptv, Some lmv => Some (positional (create_signature c) ptv lmv, endpoint)
  | _, _ => None
  end.

Inductive method : Type :=
| Blocking
| Suspending.

(** The requests of the calls [cs], in order. *)
Fixpoint requests (cs : list (method * call)) : list (list pyval * string) :=
  match cs with
  | [] => []
  | (_, c) :: rest =>
      match request_of c with
      | Some r => r :: requests rest
      | None => requests rest
      end
  end.

Section Sequences.

Variable remote : GradioClient -> list event -> string -> list pyval -> outcome.

(** [tc.create( **c)] or [await tc.create_async( **c)]. *)
Definition invoke (mc : method * call) : M TextCompletion pyval :=
  match fst mc with
  | Blocking => create remote (snd mc)
  | Suspending => create_async remote (snd mc)
  end.

(** The calls made one after the other on the same [TextCompletion], their
    results collected; an exception ends the run. *)
Fixpoint invoke_all (cs : list (method * call)) : M TextCompletion (list pyval) :=
  match cs with
  | [] => ret []
  | mc :: rest =>
      r <- invoke mc ;;
      rs <- invoke_all rest ;;
      ret (r :: rs)
  end.

End Sequences.

(** Why a run of calls stopped with [e]: a call had no request to send, or
    the service raised. *)
Definition stopped_by
    (remote : GradioClient -> list event -> string -> list pyval -> outcome)
    (cs : list (method * call)) (e : exn) : Prop :=
  (exists mc, In mc cs /\ request_of (snd mc) = None) \/
  (exists h t a args msg, remote h t a args = Raised msg /\ e = RemoteError msg).

(** ** The objects behind a client

    [Client] and [TextCompletion] refer to each other, so their instances
    live in a store and hold addresses. *)

Inductive class : Type :=
| ClientClass
| TextCompletionClass.

(** What an attribute of these instances holds: the gradio handle, or
    another instance. *)
Inductive slot : Type :=
| Handle (h : GradioClient)
| Ref (addr : nat).

(** An instance: its class and its attribute dictionary. *)
Record object : Type := mkObject {
  class_of : class;
  attributes : list (string * slot)
}.

Definition store : Type := list object.

(** A fresh instance with no attribute yet, at the next address. *)
Definition new (cls : class) (s : store) : nat * store :=
  (length s, s ++ [mkObject cls []]).

Fixpoint set_attribute (name : string) (v : slot) (attrs : list (string * slot))
  : list (string * slot) :=
  match attrs with
  | [] => [(name, v)]
  | (k, x) :: rest =>
      if String.eqb name k then (k, v) :: rest
      else (k, x) :: set_attribute name v rest
  end.

Fixpoint get_attribute (name : string) (attrs : list (string * slot))
  : option slot :=
  match attrs with
  | [] => None
  | (k, x) :: rest =>
      if String.eqb name k then Some x else get_attribute name rest
  end.

Fixpoint update (a : nat) (o : object) (s : store) : store :=
  match s, a with
  | [], _ => []
  | _ :: rest, O => o :: rest
  | x :: rest, S a' => x :: update a' o rest
  end.

(** [obj.name = v], for the instance at address [a]. *)
Definition setattr (a : nat) (name : string) (v : slot) (s : store) : store :=
  match nth_error s a with
  | Some o => update a (mkObject (class_of o) (set_attribute name v (attributes o))) s
  | None => s
  end.

(** [obj.name], if the instance at [a] has the attribute. *)
Definition getattr (a : nat) (name : string) (s : store) : option slot :=
  match nth_error s a with
  | Some o => get_attribute name (attributes o)
  | None => None
  end.

Section Construction.

(** Whether gradio can build a working handle for an address and token. *)
Variable connects : string -> option string -> bool.

(** [gradio_client.Client(src=..., hf_token=..., verbose=...)]: the handle, or
    the message of the exception it raises. *)
Definition gradio_client_Client (src : string) (hf_token : option string)
    (verbose : bool) : string + GradioClient :=
  if connects src hf_token then inr (mkGradioClient src hf_token verbose)
  else inl "connection failed".

(** [TextCompletion.__init__] (lines 62-63). *)
Definition TextCompletion__init__ (this client : nat) (s : store) : store :=
  setattr this "_client" (Ref client) s.

(** [Client.__init__] (lines 44-48), on the fresh instance [this]. *)
Definition Client__init__ (this : nat) (server_url : string)
    (huggingface_token : option string) (s : store) : (string + unit) * store :=
  match gradio_client_Client server_url huggingface_token false with
  | inl err => (inl err, s)
  | inr handle =>
      let s := setattr this "_client" (Handle handle) s in
      let '(completion, s) := new TextCompletionClass s in
      let s := TextCompletion__init__ completion this s in
      let s := setattr this "_text_completion" (Ref completion) s in
      (inr tt, s)
  end.

(** [Client(server_url, huggingface_token)]: allocate, initialise, and hand
    out the address unless the initialiser raised. *)
Definition Client_new (server_url : string) (huggingface_token : option string)
    (s : store) : (string + nat) * store :=
  let '(this, s) := new ClientClass s in
  match Client__init__ this server_url huggingface_token s with
  | (inl err, s) => (inl err, s)
  | (inr _, s) => (inr this, s)
  end.

End Construction.

(** The property [Client.text_completion] (lines 50-52). *)
Definition Client_text_completion (this : nat) (s : store) : option slot :=
  getattr this "_text_completion" s.

(** The [Client] record an address stands for. *)
Definition client_at (a : nat) (s : store) : option Client :=
  match getattr a "_client" s with
  | Some (Handle h) => Some (mkClient h)
  | _ => None
  end.

(** The [TextCompletion] record an address stands for. *)
Definition text_completion_at (b : nat) (s : store) : option TextCompletion :=
  match getattr b "_client" s with
  | Some (Ref a) =>
      match client_at a s with
      | Some cl => Some (mkTextCompletion cl)
      | None => None
      end
  | _ => None
  end.

(** A service that fails every request. *)
Definition failing_remote
  : GradioClient -> list event -> string -> list pyval -> outcome :=
  fun _ _ _ _ => Raised "remote failure".

(** ** How a call runs *)

Lemma signatures_agree (c : call) :
  create_async_signature c = create_signature c.
Proof. reflexivity. Qed.

Lemma emitted_app {S A} (m : M S A) (s : S) (t d : list event) :
  trace (snd (m (mkWorld s t))) = t ++ d -> emitted m s t = d.
Proof.
  intros E. unfold emitted. rewrite E.
  rewrite skipn_app, skipn_all, Nat.sub_diag. reflexivity.
Qed.

Section Runs.

Variable remote : GradioClient -> list event -> string -> list pyval -> outcome.

Lemma create_run (c : call) (tc : TextCompletion) (t : list event) :
  create remote c (mkWorld tc t) =
  match value_attr (prompt_type (create_signature c)) with
  | None =>
      (inl (AttributeError (prompt_type (create_signature c)) "value"),
       mkWorld tc t)
  | Some ptv =>
      match value_attr (langchain_mode (create_signature c)) with
      | None =>
          (inl (AttributeError (langchain_mode (create_signature c)) "value"),
           mkWorld tc t)
      | Some lmv =>
          let args := positional (create_signature c) ptv lmv in
          (deliver (remote (handle_of tc) t endpoint args),
           mkWorld tc (t ++ [Submit args endpoint; JobResult]))
      end
  end.
Proof.
  destruct tc as [cl]. unfold create, get_value, bind, raise, ret. cbn.
  destruct (value_attr (default (PyPromptType PLAIN) (arg_prompt_type c)));
    [|reflexivity].
  destruct (value_attr (default (PyLangChainMode DISABLED) (arg_langchain_mode c)));
    [|reflexivity].
  unfold on_client, emit, handle_of; cbn. rewrite <- app_assoc. reflexivity.
Qed.

Lemma create_async_run (c : call) (tc : TextCompletion) (t : list event) :
  create_async remote c (mkWorld tc t) =
  match value_attr (prompt_type (create_async_signature c)) with
  | None =>
      (inl (AttributeError (prompt_type (create_async_signature c)) "value"),
       mkWorld tc t)
  | Some ptv =>
      match value_attr (langchain_mode (create_async_signature c)) with
      | None =>
          (inl (AttributeError (langchain_mode (create_async_signature c)) "value"),
           mkWorld tc t)
      | Some lmv =>
          let args := positional (create_async_signature c) ptv lmv in
          (deliver (remote (handle_of tc) t endpoint args),
           mkWorld tc (t ++ [Submit args endpoint; WrapFuture; Await]))
      end
  end.
Proof.
  destruct tc as [cl]. unfold create_async, get_value, bind, raise, ret. cbn.
  destruct (value_attr (default (PyPromptType PLAIN) (arg_prompt_type c)));
    [|reflexivity].
  destruct (value_attr (default (PyLangChainMode DISABLED) (arg_langchain_mode c)));
    [|reflexivity].
  unfold on_client, emit, handle_of; cbn. rewrite <- !app_assoc. reflexivity.
Qed.

End Runs.

(** ** Shared facts *)

Lemma well_typed_members (p : params) :
  well_typed p = true ->
  exists pt lm,
    prompt_type p = PyPromptType pt /\ langchain_mode p = PyLangChainMode lm.
Proof.
  unfold well_typed. intros H. apply andb_prop in H as [Hp Hl].
  destruct (prompt_type p); try discriminate Hp.
  destruct (langchain_mode p); try discriminate Hl.
  eauto.
Qed.

Lemma emitted_nothing {S A} (m : M S A) (s : S) (t : list event) :
  trace (snd (m (mkWorld s t))) = t -> emitted m s t = [].
Proof.
  intros E. apply emitted_app. rewrite E, app_nil_r. reflexivity.
Qed.

(** Splits on whether the two enumeration arguments of [c] have a [value]
    attribute: both, only the first, or not the first. *)
Ltac by_value_attrs c :=
  destruct (value_attr (prompt_type (create_signature c))) as [?ptv|];
  [destruct (value_attr (langchain_mode (create_signature c))) as [?lmv|]|].

Section Emitted.

Variable remote : GradioClient -> list event -> string -> list pyval -> outcome.

(** What [create] adds to the trace. *)
Lemma create_emitted (c : call) (tc : TextCompletion) (t : list event) :
  emitted (create remote c) tc t =
  match value_attr (prompt_type (create_signature c)),
        value_attr (langchain_mode (create_signature c)) with
  | Some ptv, Some lmv =>
      [Submit (positional (create_signature c) ptv lmv) endpoint; JobResult]
  | _, _ => []
  end.
Proof.
  destruct (value_attr (prompt_type (create_signature c))) as [ptv|] eqn:Ep;
    [destruct (value_attr (langchain_mode (create_signature c))) as [lmv|] eqn:El|];
    [apply emitted_app | apply emitted_nothing | apply emitted_nothing];
    rewrite create_run, Ep, ?El; reflexivity.
Qed.

(** What [create_async] adds to the trace. *)
Lemma create_async_emitted (c : call) (tc : TextCompletion) (t : list event) :
  emitted (create_async remote c) tc t =
  match value_attr (prompt_type (create_signature c)),
        value_attr (langchain_mode (create_signature c)) with
  | Some ptv, Some lmv =>
      [Submit (positional (create_signature c) ptv lmv) endpoint;
       WrapFuture; Await]
  | _, _ => []
  end.
Proof.
  rewrite <- (signatures_agree c).
  destruct (value_attr (prompt_type (create_async_signature c))) as [ptv|] eqn:Ep;
    [destruct (value_attr (langchain_mode (create_async_signature c))) as [lmv|] eqn:El|];
    [apply emitted_app | apply emitted_nothing | apply emitted_nothing];
    rewrite create_async_run, Ep, ?El; reflexivity.
Qed.

(** What [create] ends with. *)
Lemma create_result (c : call) (tc : TextCompletion) (t : list event) :
  result (create remote c) tc t =
  match value_attr (prompt_type (create_signature c)),
        value_attr (langchain_mode (create_signature c)) with
  | Some ptv, Some lmv =>
      deliver (remote (handle_of tc) t endpoint
                 (positional (create_signature c) ptv lmv))
  | Some _, None =>
      inl (AttributeError (langchain_mode (create_signature c)) "value")
  | None, _ => inl (AttributeError (prompt_type (create_signature c)) "value")
  end.
Proof.
  unfold result. rewrite create_run.
  by_value_attrs c; reflexivity.
Qed.

(** What [create_async] ends with. *)
Lemma create_async_result (c : call) (tc : TextCompletion) (t : list event) :
  result (create_async remote c) tc t =
  match value_attr (prompt_type (create_signature c)),
        value_attr (langchain_mode (create_signature c)) with
  | Some ptv, Some lmv =>
      deliver (remote (handle_of tc) t endpoint
                 (positional (create_signature c) ptv lmv))
  | Some _, None =>
      inl (AttributeError (langchain_mode (create_signature c)) "value")
  | None, _ => inl (AttributeError (prompt_type (create_signature c)) "value")
  end.
Proof.
  unfold result. rewrite create_async_run, (signatures_agree c).
  by_value_attrs c; reflexivity.
Qed.

(** The receiver is left as it was found, by either method. *)
Lemma create_receiver (c : call) (tc : TextCompletion) (t : list event) :
  receiver (create remote c) tc t = tc /\
  receiver (create_async remote c) tc t = tc.
Proof.
  unfold receiver. rewrite create_run, create_async_run.
  split.
  - by_value_attrs c; reflexivity.
  - destruct (value_attr (prompt_type (create_async_signature c)));
      [destruct (value_attr (langchain_mode (create_async_signature c)))|];
      reflexivity.
Qed.

(** On members of the two enumerations both methods send one request. *)
Lemma well_typed_emitted (c : call) (tc : TextCompletion) (t : list event) :
  well_typed (create_signature c) = true ->
  exists pt lm,
    prompt_type (create_signature c) = PyPromptType pt /\
    langchain_mode (create_signature c) = PyLangChainMode lm /\
    let args := positional (create_signature c)
                  (PyStr (PromptTypeEnum.value pt))
                  (PyStr (LangChainModeEnum.value lm)) in
    emitted (create remote c) tc t = [Submit args endpoint; JobResult] /\
    emitted (create_async remote c) tc t =
      [Submit args endpoint; WrapFuture; Await].
Proof.
  intros H. destruct (well_typed_members _ H) as (pt & lm & Hp & Hl).
  exists pt, lm. rewrite create_emitted, create_async_emitted, Hp, Hl.
  repeat split.
Qed.

End Emitted.

(** ** The request of [create] *)

(** C1, as stated: for every valid combination of parameters [create]
    produces exactly 24 positional values.  It does not: the call
    [create(prompt="Hello")] sends one request, and that request carries 25
    values. *)
Lemma create_sends_25_values_not_24 :
  exists args,
    submissions
      (emitted (create sample_remote (only_prompt (PyStr "Hello")))
         sample_completion []) = [(args, "/submit_nochat")] /\
    length args = 25 /\
    length args <> 24.
Proof.
  eexists. split; [reflexivity|]. split; [reflexivity|]. cbn. lia.
Qed.

(** C1, amended: for every combination of parameters whose [prompt_type] is a
    member of [PromptType] and whose [langchain_mode] is a member of
    [LangChainMode], [create] sends one request to ["/submit_nochat"] with
    exactly 25 positional values, in the order instruction, input,
    system_pre_context, stream_output, prompt-type tag, prompt_dict,
    temperature, top_p, top_k, beams, max_output_length, min_output_length,
    early_stopping, max_time, repetition_penalty, number_returns,
    enable_sampler, chat_mode, prompt, input_context_for_instruction,
    langchain-mode tag, langchain_top_k_docs, langchain_enable_chunk,
    langchain_chunk_size, langchain_document_choice. *)
Theorem create_positional_order
    (remote : GradioClient -> list event -> string -> list pyval -> outcome)
    (c : call) (tc : TextCompletion) (t : list event)
    (pt : PromptType) (lm : LangChainMode) :
  prompt_type (create_signature c) = PyPromptType pt ->
  langchain_mode (create_signature c) = PyLangChainMode lm ->
  exists args,
    args =
      [ (* instruction *) PyStr "";
        (* input *) PyStr "";
        system_pre_context (create_signature c);
        (* stream_output *) PyBool false;
        PyStr (PromptTypeEnum.value pt);
        (* prompt_dict *) PyStr "";
        temperature (create_signature c);
        top_p (create_signature c);
        top_k (create_signature c);
        beams (create_signature c);
        max_output_length (create_signature c);
        min_output_length (create_signature c);
        early_stopping (create_signature c);
        max_time (create_signature c);
        repetition_penalty (create_signature c);
        number_returns (create_signature c);
        enable_sampler (create_signature c);
        (* chat_mode *) PyBool false;
        prompt (create_signature c);
        input_context_for_instruction (create_signature c);
        PyStr (LangChainModeEnum.value lm);
        (* langchain_top_k_docs *) PyInt 4;
        (* langchain_enable_chunk *) PyBool true;
        (* langchain_chunk_size *) PyInt 512;
        (* langchain_document_choice *) PyList [PyStr "All"] ] /\
    emitted (create remote c) tc t = [Submit args "/submit_nochat"; JobResult] /\
    length args = 25.
Proof.
  intros Hp Hl. eexists. split; [reflexivity|].
  rewrite create_emitted, Hp, Hl. split; reflexivity.
Qed.

(** The order, on [create(prompt="Hello", prompt_type=PromptType.INSTRUCT,
    temperature=0.5)]. *)
Lemma create_positional_order_witness :
  exists args,
    emitted (create sample_remote hello_call) sample_completion [] =
      [Submit args "/submit_nochat"; JobResult] /\
    length args = 25.
Proof.
  destruct (create_positional_order sample_remote hello_call sample_completion
              [] INSTRUCT DISABLED eq_refl eq_refl) as (args & _ & He & Hn).
  exists args. split; [exact He | exact Hn].
Defined.

(** C2: [create(prompt="Hello", prompt_type=PromptType.INSTRUCT,
    temperature=0.5)] forwards exactly the positional list
    ["", "", "", False, "instruct", "", 0.5, 1.0, 40, 1.0, 128, 0, False, 180,
    1.07, 1, False, False, "Hello", "", "Disabled", 4, True, 512, ["All"]],
    in one request, whatever the service and the client. *)
Theorem create_hello_instruct_example
    (remote : GradioClient -> list event -> string -> list pyval -> outcome)
    (tc : TextCompletion) (t : list event) :
  emitted (create remote hello_call) tc t =
    [Submit
       [PyStr ""; PyStr ""; PyStr ""; PyBool false; PyStr "instruct"; PyStr "";
        PyFloat 0.5; PyFloat 1.0; PyInt 40; PyFloat 1.0; PyInt 128; PyInt 0;
        PyBool false; PyInt 180; PyFloat float_1_07; PyInt 1; PyBool false;
        PyBool false; PyStr "Hello"; PyStr ""; PyStr "Disabled"; PyInt 4;
        PyBool true; PyInt 512; PyList [PyStr "All"]]
       "/submit_nochat";
     JobResult].
Proof. rewrite create_emitted. reflexivity. Qed.

(** ** The blocking and the suspending method *)

(** C3: for every assignment of the public parameters, [create] and
    [create_async] build the same positional argument lists and send them to
    the same endpoint, ["/submit_nochat"]; they fail locally on the same
    calls; and on members of the two enumerations each sends the one request
    [args]. *)
Theorem create_and_create_async_agree
    (remote : GradioClient -> list event -> string -> list pyval -> outcome)
    (c : call) (tc : TextCompletion) (t : list event) :
  submissions (emitted (create remote c) tc t) =
    submissions (emitted (create_async remote c) tc t) /\
  Forall (fun r => snd r = "/submit_nochat")
    (submissions (emitted (create remote c) tc t)) /\
  result (create remote c) tc t = result (create_async remote c) tc t /\
  (well_typed (create_signature c) = true ->
   exists args,
     emitted (create remote c) tc t =
       [Submit args "/submit_nochat"; JobResult] /\
     emitted (create_async remote c) tc t =
       [Submit args "/submit_nochat"; WrapFuture; Await]).
Proof.
  repeat split.
  - rewrite create_emitted, create_async_emitted.
    by_value_attrs c; reflexivity.
  - rewrite create_emitted.
    by_value_attrs c; cbn; auto.
  - rewrite create_result, create_async_result. reflexivity.
  - intros H.
    destruct (well_typed_emitted remote c tc t H) as (pt & lm & _ & _ & H1 & H2).
    eexists. split; [exact H1 | exact H2].
Qed.

(** The two methods on the same call: one request each, the same values. *)
Lemma create_and_create_async_agree_witness :
  exists args,
    emitted (create sample_remote hello_call) sample_completion [] =
      [Submit args "/submit_nochat"; JobResult] /\
    emitted (create_async sample_remote hello_call) sample_completion [] =
      [Submit args "/submit_nochat"; WrapFuture; Await].
Proof.
  destruct (create_and_create_async_agree sample_remote hello_call
              sample_completion []) as (_ & _ & _ & H).
  apply H. reflexivity.
Defined.

(** ** Fields that no parameter reaches *)

(** C4: whatever the caller supplies, every request sent by [create] or
    [create_async] carries the eight hidden fields at their constant values:
    instruction "", input "", stream_output False, prompt_dict "", chat_mode
    False, langchain_top_k_docs 4, langchain_enable_chunk True,
    langchain_chunk_size 512; and on members of the two enumerations each
    method does send a request. *)
Theorem hidden_fields_constant
    (remote : GradioClient -> list event -> string -> list pyval -> outcome)
    (c : call) (tc : TextCompletion) (t : list event) :
  every_request hidden_fields_fixed (create remote c) tc t /\
  every_request hidden_fields_fixed (create_async remote c) tc t /\
  (well_typed (create_signature c) = true ->
   length (submissions (emitted (create remote c) tc t)) = 1 /\
   length (submissions (emitted (create_async remote c) tc t)) = 1).
Proof.
  unfold every_request. rewrite create_emitted, create_async_emitted.
  split; [|split].
  - by_value_attrs c; cbn; repeat constructor.
  - by_value_attrs c; cbn; repeat constructor.
  - intros H. destruct (well_typed_members _ H) as (pt & lm & Hp & Hl).
    rewrite Hp, Hl. split; reflexivity.
Qed.

(** The hidden fields of the request of a concrete call. *)
Lemma hidden_fields_constant_witness :
  every_request hidden_fields_fixed (create sample_remote hello_call)
    sample_completion [] /\
  length
    (submissions
       (emitted (create sample_remote hello_call) sample_completion [])) = 1.
Proof.
  destruct (hidden_fields_constant sample_remote hello_call sample_completion [])
    as (H1 & _ & H3).
  split; [exact H1 | apply H3; reflexivity].
Defined.

(** C5: every request sent by [create] or [create_async] ends with the
    document choice, the one-element list ["All"], whatever the values of the
    public parameters; and on members of the two enumerations each method
    does send a request. *)
Theorem document_choice_always_all
    (remote : GradioClient -> list event -> string -> list pyval -> outcome)
    (c : call) (tc : TextCompletion) (t : list event) :
  every_request document_choice_all (create remote c) tc t /\
  every_request document_choice_all (create_async remote c) tc t /\
  (well_typed (create_signature c) = true ->
   length (submissions (emitted (create remote c) tc t)) = 1 /\
   length (submissions (emitted (create_async remote c) tc t)) = 1).
Proof.
  unfold every_request. rewrite create_emitted, create_async_emitted.
  split; [|split].
  - by_value_attrs c; cbn; repeat constructor.
  - by_value_attrs c; cbn; repeat constructor.
  - intros H. destruct (well_typed_members _ H) as (pt & lm & Hp & Hl).
    rewrite Hp, Hl. split; reflexivity.
Qed.

(** The document choice of the request of a concrete [create_async] call. *)
Lemma document_choice_always_all_witness :
  every_request document_choice_all (create_async sample_remote hello_call)
    sample_completion [] /\
  length
    (submissions
       (emitted (create_async sample_remote hello_call) sample_completion []))
  = 1.
Proof.
  destruct (document_choice_always_all sample_remote hello_call
              sample_completion []) as (_ & H2 & H3).
  split; [exact H2 | apply H3; reflexivity].
Defined.

(** ** Values outside the enumerations *)

(** C6, as stated: every value of [prompt_type] outside [PromptType] makes
    the call fail before any network activity.  It does not: the member
    [LangChainMode.ALL] is no [PromptType], its tag "All" is the tag of no
    [PromptType], and [create(prompt="Hello", prompt_type=LangChainMode.ALL)]
    sends its request, with "All" as the prompt-type tag, and returns the
    service's answer. *)
Lemma foreign_member_is_forwarded :
  is_PromptType (PyLangChainMode ALL) = false /\
  ~ In "All" PromptTypeEnum.tags /\
  result (create sample_remote foreign_member_call) sample_completion [] =
    inr (PyStr "response") /\
  emitted (create sample_remote foreign_member_call) sample_completion [] =
    [Submit
       [PyStr ""; PyStr ""; PyStr ""; PyBool false; PyStr "All"; PyStr "";
        PyFloat 1.0; PyFloat 1.0; PyInt 40; PyFloat 1.0; PyInt 128; PyInt 0;
        PyBool false; PyInt 180; PyFloat float_1_07; PyInt 1; PyBool false;
        PyBool false; PyStr "Hello"; PyStr ""; PyStr "Disabled"; PyInt 4;
        PyBool true; PyInt 512; PyList [PyStr "All"]]
       "/submit_nochat";
     JobResult].
Proof.
  split; [reflexivity|]. split; [|split; reflexivity].
  cbn. intuition discriminate.
Qed.

(** C6, amended: the methods look no further than the [value] attribute of
    the two arguments.  Members of [PromptType] and [LangChainMode] have it;
    [None], booleans, numbers, text and lists do not.  When [prompt_type], or
    else [langchain_mode], has no such attribute, [create] and [create_async]
    raise [AttributeError] on that argument and send nothing; when both have
    it, no local failure occurs: one request goes out, carrying the two
    attribute values as the tags, and the call ends as the service decides. *)
Theorem enum_arguments_need_a_value_attribute
    (remote : GradioClient -> list event -> string -> list pyval -> outcome)
    (c : call) (tc : TextCompletion) (t : list event) :
  (forall m, value_attr (PyPromptType m) = Some (PyStr (PromptTypeEnum.value m))) /\
  (forall m,
     value_attr (PyLangChainMode m) = Some (PyStr (LangChainModeEnum.value m))) /\
  (forall b z f s l,
     value_attr PyNone = None /\ value_attr (PyBool b) = None /\
     value_attr (PyInt z) = None /\ value_attr (PyFloat f) = None /\
     value_attr (PyStr s) = None /\ value_attr (PyList l) = None) /\
  match value_attr (prompt_type (create_signature c)),
        value_attr (langchain_mode (create_signature c)) with
  | Some ptv, Some lmv =>
      exists args,
        nth_error args 4 = Some ptv /\
        nth_error args 20 = Some lmv /\
        emitted (create remote c) tc t =
          [Submit args "/submit_nochat"; JobResult] /\
        emitted (create_async remote c) tc t =
          [Submit args "/submit_nochat"; WrapFuture; Await] /\
        result (create remote c) tc t =
          deliver (remote (handle_of tc) t "/submit_nochat" args) /\
        result (create_async remote c) tc t =
          deliver (remote (handle_of tc) t "/submit_nochat" args)
  | Some _, None =>
      result (create remote c) tc t =
        inl (AttributeError (langchain_mode (create_signature c)) "value") /\
      result (create_async remote c) tc t =
        inl (AttributeError (langchain_mode (create_signature c)) "value") /\
      emitted (create remote c) tc t = [] /\
      emitted (create_async remote c) tc t = []
  | None, _ =>
      result (create remote c) tc t =
        inl (AttributeError (prompt_type (create_signature c)) "value") /\
      result (create_async remote c) tc t =
        inl (AttributeError (prompt_type (create_signature c)) "value") /\
      emitted (create remote c) tc t = [] /\
      emitted (create_async remote c) tc t = []
  end.
Proof.
  split; [reflexivity|]. split; [reflexivity|].
  split; [intros; repeat split|].
  rewrite create_emitted, create_async_emitted, create_result,
    create_async_result.
  by_value_attrs c.
  - eexists. repeat split; reflexivity.
  - repeat split.
  - repeat split.
Qed.

(** ** One request a call, nothing kept *)

(** C7: a call of [create] or [create_async] on members of the two
    enumerations sends exactly one request; whatever the call, the method
    leaves its [TextCompletion], and the [Client] in it, as it found them and
    only extends the transport's trace; and no operation of [Client]
    ([_predict], [_predict_async], [text_completion]) changes the [Client]. *)
Theorem one_request_and_nothing_retained
    (remote : GradioClient -> list event -> string -> list pyval -> outcome)
    (c : call) (tc : TextCompletion) (t : list event) :
  snd (create remote c (mkWorld tc t)) =
    mkWorld tc (t ++ emitted (create remote c) tc t) /\
  snd (create_async remote c (mkWorld tc t)) =
    mkWorld tc (t ++ emitted (create_async remote c) tc t) /\
  (forall (args : list pyval) (api_name : string) (cl : Client),
     receiver (_predict remote args api_name) cl t = cl /\
     receiver (_predict_async remote args api_name) cl t = cl /\
     receiver text_completion cl t = cl) /\
  (well_typed (create_signature c) = true ->
   length (submissions (emitted (create remote c) tc t)) = 1 /\
   length (submissions (emitted (create_async remote c) tc t)) = 1).
Proof.
  split; [|split; [|split]].
  - rewrite create_emitted, create_run.
    by_value_attrs c; cbn; rewrite ?app_nil_r; reflexivity.
  - rewrite create_async_emitted, create_async_run, (signatures_agree c).
    by_value_attrs c; cbn; rewrite ?app_nil_r; reflexivity.
  - intros args api_name cl. repeat split.
  - intros H.
    destruct (well_typed_emitted remote c tc t H) as (pt & lm & _ & _ & H1 & H2).
    rewrite H1, H2. split; reflexivity.
Qed.

(** One request each, on a concrete call. *)
Lemma one_request_and_nothing_retained_witness :
  length
    (submissions
       (emitted (create sample_remote hello_call) sample_completion [])) = 1 /\
  length
    (submissions
       (emitted (create_async sample_remote hello_call) sample_completion []))
  = 1.
Proof.
  destruct (one_request_and_nothing_retained sample_remote hello_call
              sample_completion []) as (_ & _ & _ & H).
  apply H. reflexivity.
Defined.

(** ** Defaults *)

(** C8: a call of [create] or [create_async] that supplies only the prompt
    forwards the defaults: prompt-type tag "plain",
    input_context_for_instruction "", enable_sampler False, temperature 1.0,
    top_p 1.0, top_k 40, beams 1.0, early_stopping False, min_output_length 0,
    max_output_length 128, max_time 180, repetition_penalty 1.07,
    number_returns 1, system_pre_context "" and langchain-mode tag
    "Disabled". *)
Theorem only_prompt_forwards_defaults
    (remote : GradioClient -> list event -> string -> list pyval -> outcome)
    (p : pyval) (tc : TextCompletion) (t : list event) :
  exists args,
    args =
      [PyStr ""; PyStr "";
       (* system_pre_context *) PyStr "";
       PyBool false;
       (* prompt type *) PyStr "plain";
       PyStr "";
       (* temperature *) PyFloat 1.0;
       (* top_p *) PyFloat 1.0;
       (* top_k *) PyInt 40;
       (* beams *) PyFloat 1.0;
       (* max_output_length *) PyInt 128;
       (* min_output_length *) PyInt 0;
       (* early_stopping *) PyBool false;
       (* max_time *) PyInt 180;
       (* repetition_penalty *) PyFloat float_1_07;
       (* number_returns *) PyInt 1;
       (* enable_sampler *) PyBool false;
       PyBool false;
       p;
       (* input_context_for_instruction *) PyStr "";
       (* langchain mode *) PyStr "Disabled";
       PyInt 4; PyBool true; PyInt 512; PyList [PyStr "All"]] /\
    emitted (create remote (only_prompt p)) tc t =
      [Submit args "/submit_nochat"; JobResult] /\
    emitted (create_async remote (only_prompt p)) tc t =
      [Submit args "/submit_nochat"; WrapFuture; Await].
Proof.
  eexists. split; [reflexivity|].
  rewrite create_emitted, create_async_emitted. split; reflexivity.
Qed.

(** ** The empty prompt *)

(** C9: with the empty string as prompt, and members of the two enumerations,
    [create] and [create_async] do not fail locally: they send their one
    request with "" as the 19th positional value and end as the service
    decides; and the request is, but for that 19th value, the one any other
    prompt [q] gives. *)
Theorem empty_prompt_is_forwarded
    (remote : GradioClient -> list event -> string -> list pyval -> outcome)
    (c : call) (tc : TextCompletion) (t : list event) :
  arg_prompt c = PyStr "" ->
  well_typed (create_signature c) = true ->
  exists args,
    nth_error args 18 = Some (PyStr "") /\
    emitted (create remote c) tc t =
      [Submit args "/submit_nochat"; JobResult] /\
    emitted (create_async remote c) tc t =
      [Submit args "/submit_nochat"; WrapFuture; Await] /\
    result (create remote c) tc t =
      deliver (remote (handle_of tc) t "/submit_nochat" args) /\
    result (create_async remote c) tc t =
      deliver (remote (handle_of tc) t "/submit_nochat" args) /\
    forall q : pyval,
      emitted (create remote (with_prompt q c)) tc t =
        [Submit (firstn 18 args ++ q :: skipn 19 args) "/submit_nochat";
         JobResult] /\
      emitted (create_async remote (with_prompt q c)) tc t =
        [Submit (firstn 18 args ++ q :: skipn 19 args) "/submit_nochat";
         WrapFuture; Await].
Proof.
  intros Hq H. destruct (well_typed_members _ H) as (pt & lm & Hp & Hl).
  exists (positional (create_signature c) (PyStr (PromptTypeEnum.value pt))
            (PyStr (LangChainModeEnum.value lm))).
  split; [cbn; rewrite Hq; reflexivity|].
  split; [rewrite create_emitted, Hp, Hl; reflexivity|].
  split; [rewrite create_async_emitted, Hp, Hl; reflexivity|].
  split; [rewrite create_result, Hp, Hl; reflexivity|].
  split; [rewrite create_async_result, Hp, Hl; reflexivity|].
  intros q. rewrite create_emitted, create_async_emitted.
  change (prompt_type (create_signature (with_prompt q c)))
    with (prompt_type (create_signature c)).
  change (langchain_mode (create_signature (with_prompt q c)))
    with (langchain_mode (create_signature c)).
  rewrite Hp, Hl. split; reflexivity.
Qed.

(** [create(prompt="")] against a service that answers. *)
Lemma empty_prompt_is_forwarded_witness :
  exists args,
    nth_error args 18 = Some (PyStr "") /\
    emitted (create sample_remote (only_prompt (PyStr ""))) sample_completion []
    = [Submit args "/submit_nochat"; JobResult] /\
    result (create sample_remote (only_prompt (PyStr ""))) sample_completion []
    = inr (PyStr "response").
Proof.
  destruct (empty_prompt_is_forwarded sample_remote (only_prompt (PyStr ""))
              sample_completion [] eq_refl eq_refl)
    as (args & H18 & He & _ & Hr & _).
  exists args. split; [exact H18|]. split; [exact He | exact Hr].
Defined.

(** ** The enumerations *)

(** C10: [PromptType] has exactly 15 members, with 15 distinct tags, none of
    them "custom"; [LangChainMode] has exactly 10 members, with 10 distinct
    tags; and every request of [create] or [create_async] carries the empty
    string as prompt_dict. *)
Theorem enumerations_closed_and_prompt_dict_empty
    (remote : GradioClient -> list event -> string -> list pyval -> outcome)
    (c : call) (tc : TextCompletion) (t : list event) :
  length PromptTypeEnum.members = 15 /\
  (forall m : PromptType, In m PromptTypeEnum.members) /\
  NoDup PromptTypeEnum.tags /\
  (forall m : PromptType, PromptTypeEnum.value m <> "custom") /\
  length LangChainModeEnum.members = 10 /\
  (forall m : LangChainMode, In m LangChainModeEnum.members) /\
  NoDup LangChainModeEnum.tags /\
  every_request (fun args => nth_error args 5 = Some (PyStr ""))
    (create remote c) tc t /\
  every_request (fun args => nth_error args 5 = Some (PyStr ""))
    (create_async remote c) tc t /\
  (well_typed (create_signature c) = true ->
   length (submissions (emitted (create remote c) tc t)) = 1 /\
   length (submissions (emitted (create_async remote c) tc t)) = 1).
Proof.
  split; [reflexivity|].
  split; [intros []; cbn; tauto|].
  split; [repeat (constructor; [cbn; intuition discriminate|]); constructor|].
  split; [intros []; discriminate|].
  split; [reflexivity|].
  split; [intros []; cbn; tauto|].
  split; [repeat (constructor; [cbn; intuition discriminate|]); constructor|].
  unfold every_request. rewrite create_emitted, create_async_emitted.
  split; [|split].
  - by_value_attrs c; cbn; repeat constructor.
  - by_value_attrs c; cbn; repeat constructor.
  - intros H. destruct (well_typed_members _ H) as (pt & lm & Hp & Hl).
    rewrite Hp, Hl. split; reflexivity.
Qed.

(** The enumeration facts and the prompt_dict of the request, on
    [create(prompt="Hello")]. *)
Lemma enumerations_closed_and_prompt_dict_empty_witness :
  ~ In "custom" PromptTypeEnum.tags /\
  every_request (fun args => nth_error args 5 = Some (PyStr ""))
    (create sample_remote (only_prompt (PyStr "Hello"))) sample_completion [] /\
  length
    (submissions
       (emitted (create sample_remote (only_prompt (PyStr "Hello")))
          sample_completion [])) = 1.
Proof.
  destruct (enumerations_closed_and_prompt_dict_empty sample_remote
              (only_prompt (PyStr "Hello")) sample_completion [])
    as (_ & _ & _ & Hc & _ & _ & _ & Hd & _ & Hn).
  split; [|split; [exact Hd | apply Hn; reflexivity]].
  intros Hin. apply in_map_iff in Hin as (m & Hm & _). exact (Hc m Hm).
Defined.

(** ** Further properties of the request *)

Lemma PromptType_value_injective (m1 m2 : PromptType) :
  PromptTypeEnum.value m1 = PromptTypeEnum.value m2 -> m1 = m2.
Proof. destruct m1, m2; intros E; try reflexivity; discriminate E. Qed.

Lemma LangChainMode_value_injective (m1 m2 : LangChainMode) :
  LangChainModeEnum.value m1 = LangChainModeEnum.value m2 -> m1 = m2.
Proof. destruct m1, m2; intros E; try reflexivity; discriminate E. Qed.

Lemma submissions_app (a b : list event) :
  submissions (a ++ b) = submissions a ++ submissions b.
Proof.
  induction a as [|e a IH]; [reflexivity|].
  destruct e; cbn; rewrite IH; reflexivity.
Qed.

(** X1: the request of a call is a function of the call alone: the service,
    the client the [TextCompletion] holds (its address and token) and the
    requests made before have no part in it, for [create] and for
    [create_async]. *)
Theorem request_depends_on_the_call_only
    (remote remote' : GradioClient -> list event -> string -> list pyval -> outcome)
    (c : call) (tc tc' : TextCompletion) (t t' : list event) :
  submissions (emitted (create remote c) tc t) =
    submissions (emitted (create remote' c) tc' t') /\
  submissions (emitted (create_async remote c) tc t) =
    submissions (emitted (create_async remote' c) tc' t') /\
  submissions (emitted (create remote c) tc t) =
    match request_of c with
    | Some r => [r]
    | None => []
    end.
Proof.
  rewrite !create_emitted, !create_async_emitted. unfold request_of.
  by_value_attrs c; repeat split.
Qed.

(** X2: nothing of the public parameters is lost or merged in the request:
    two calls on members of the enumerations that send the same request have
    bound the same value to every one of the sixteen parameters. *)
Theorem request_determines_the_parameters
    (remote remote' : GradioClient -> list event -> string -> list pyval -> outcome)
    (c1 c2 : call) (tc tc' : TextCompletion) (t t' : list event) :
  well_typed (create_signature c1) = true ->
  well_typed (create_signature c2) = true ->
  submissions (emitted (create remote c1) tc t) =
    submissions (emitted (create remote' c2) tc' t') ->
  create_signature c1 = create_signature c2.
Proof.
  intros H1 H2.
  destruct (well_typed_members _ H1) as (pt1 & lm1 & Hp1 & Hl1).
  destruct (well_typed_members _ H2) as (pt2 & lm2 & Hp2 & Hl2).
  rewrite !create_emitted, Hp1, Hl1, Hp2, Hl2.
  remember (create_signature c1) as p1 eqn:E1.
  remember (create_signature c2) as p2 eqn:E2.
  clear E1 E2 H1 H2.
  destruct p1, p2. cbn in *. subst.
  intros E. injection E as E. intros.
  repeat match goal with
         | H : PromptTypeEnum.value _ = PromptTypeEnum.value _ |- _ =>
             apply PromptType_value_injective in H
         | H : LangChainModeEnum.value _ = LangChainModeEnum.value _ |- _ =>
             apply LangChainMode_value_injective in H
         end.
  subst. reflexivity.
Qed.

(** Two calls that agree except in how they spell the defaults. *)
Lemma request_determines_the_parameters_witness :
  create_signature hello_call =
  create_signature
    {| arg_prompt := PyStr "Hello";
       arg_prompt_type := Some (PyPromptType INSTRUCT);
       arg_input_context_for_instruction := Some (PyStr "");
       arg_enable_sampler := None;
       arg_temperature := Some (PyFloat 0.5);
       arg_top_p := None;
       arg_top_k := Some (PyInt 40);
       arg_beams := None;
       arg_early_stopping := None;
       arg_min_output_length := None;
       arg_max_output_length := None;
       arg_max_time := None;
       arg_repetition_penalty := None;
       arg_number_returns := None;
       arg_system_pre_context := None;
       arg_langchain_mode := Some (PyLangChainMode DISABLED) |}.
Proof.
  apply (request_determines_the_parameters sample_remote failing_remote
           hello_call _ sample_completion sample_completion [] [JobResult]);
    reflexivity.
Defined.

(** X3: a member of [LangChainMode] given as [prompt_type] is never caught:
    the request goes out with that member's tag in the prompt-type position,
    and the tag is the tag of no [PromptType] member. *)
Theorem foreign_member_sends_a_foreign_tag
    (remote : GradioClient -> list event -> string -> list pyval -> outcome)
    (c : call) (tc : TextCompletion) (t : list event)
    (given mode : LangChainMode) :
  prompt_type (create_signature c) = PyLangChainMode given ->
  langchain_mode (create_signature c) = PyLangChainMode mode ->
  exists args,
    emitted (create remote c) tc t = [Submit args "/submit_nochat"; JobResult] /\
    emitted (create_async remote c) tc t =
      [Submit args "/submit_nochat"; WrapFuture; Await] /\
    nth_error args 4 = Some (PyStr (LangChainModeEnum.value given)) /\
    forall pt : PromptType,
      PromptTypeEnum.value pt <> LangChainModeEnum.value given.
Proof.
  intros Hp Hl. eexists.
  rewrite create_emitted, create_async_emitted, Hp, Hl. cbn.
  split; [reflexivity|]. split; [reflexivity|]. split; [reflexivity|].
  intros pt. destruct pt, given; discriminate.
Qed.

(** [create(prompt="Hello", prompt_type=LangChainMode.ALL)]. *)
Lemma foreign_member_sends_a_foreign_tag_witness :
  exists args,
    emitted (create sample_remote foreign_member_call) sample_completion [] =
      [Submit args "/submit_nochat"; JobResult] /\
    nth_error args 4 = Some (PyStr "All").
Proof.
  destruct (foreign_member_sends_a_foreign_tag sample_remote foreign_member_call
              sample_completion [] ALL DISABLED eq_refl eq_refl)
    as (args & He & _ & H4 & _).
  exists args. split; [exact He | exact H4].
Defined.

(** ** Failures of the service *)

(** X4: when the service raises on the request of a call, [create] and
    [create_async] raise that error to the caller; the request has been sent
    once and is not sent again, and the [TextCompletion] is left as it was. *)
Theorem service_failure_is_raised_once
    (remote : GradioClient -> list event -> string -> list pyval -> outcome)
    (c : call) (tc : TextCompletion) (t : list event)
    (args : list pyval) (api_name msg : string) :
  request_of c = Some (args, api_name) ->
  remote (handle_of tc) t api_name args = Raised msg ->
  result (create remote c) tc t = inl (RemoteError msg) /\
  result (create_async remote c) tc t = inl (RemoteError msg) /\
  submissions (emitted (create remote c) tc t) = [(args, api_name)] /\
  submissions (emitted (create_async remote c) tc t) = [(args, api_name)] /\
  receiver (create remote c) tc t = tc /\
  receiver (create_async remote c) tc t = tc.
Proof.
  unfold request_of. intros Hr Hm.
  rewrite create_result, create_async_result, create_emitted,
    create_async_emitted.
  destruct (create_receiver remote c tc t) as [R1 R2]. rewrite R1, R2.
  by_value_attrs c; try discriminate Hr.
  injection Hr as <- <-. rewrite Hm. repeat split.
Qed.

(** [create(prompt="Hello")] against a service that fails. *)
Lemma service_failure_is_raised_once_witness :
  result (create failing_remote (only_prompt (PyStr "Hello")))
    sample_completion [] = inl (RemoteError "remote failure") /\
  length
    (submissions
       (emitted (create failing_remote (only_prompt (PyStr "Hello")))
          sample_completion [])) = 1.
Proof.
  destruct (service_failure_is_raised_once failing_remote
              (only_prompt (PyStr "Hello")) sample_completion [] _ _
              "remote failure" eq_refl eq_refl)
    as (Hr & _ & Hs & _).
  split; [exact Hr | rewrite Hs; reflexivity].
Defined.

(** ** The two primitives of [Client] *)


(** ** Calls one after the other *)

Lemma deliver_raised
    (o : outcome) (e : exn) :
  deliver o = inl e -> exists msg, o = Raised msg /\ e = RemoteError msg.
Proof.
  destruct o as [v|msg]; cbn; intros E; [discriminate E|].
  injection E as <-. eauto.
Qed.

Section SequenceRuns.

Variable remote : GradioClient -> list event -> string -> list pyval -> outcome.

(** One call of a sequence: either it raises before sending anything, or it
    sends its request, waits, and ends as the service decides. *)
Lemma invoke_cases (mc : method * call) (tc : TextCompletion) (t : list event) :
  match request_of (snd mc) with
  | Some r =>
      exists d,
        submissions d = [] /\
        invoke remote mc (mkWorld tc t) =
          (deliver (remote (handle_of tc) t (snd r) (fst r)),
           mkWorld tc (t ++ Submit (fst r) (snd r) :: d))
  | None =>
      exists e, invoke remote mc (mkWorld tc t) = (inl e, mkWorld tc t)
  end.
Proof.
  destruct mc as [m c]. unfold request_of, invoke. cbn [fst snd].
  destruct m.
  - rewrite create_run.
    by_value_attrs c; cbn;
      [eexists; split; [|reflexivity]; reflexivity | eauto | eauto].
  - rewrite create_async_run, (signatures_agree c).
    by_value_attrs c; cbn;
      [eexists; split; [|reflexivity]; reflexivity | eauto | eauto].
Qed.

Lemma invoke_all_cons (mc : method * call) (rest : list (method * call))
    (w : world TextCompletion) :
  invoke_all remote (mc :: rest) w =
  match invoke remote mc w with
  | (inr r, w') =>
      match invoke_all remote rest w' with
      | (inr rs, w'') => (inr (r :: rs), w'')
      | (inl e, w'') => (inl e, w'')
      end
  | (inl e, w') => (inl e, w')
  end.
Proof. reflexivity. Qed.

Lemma invoke_all_run (tc : TextCompletion) (cs : list (method * call)) :
  forall t : list event,
  exists (d : list event) (k : nat),
    snd (invoke_all remote cs (mkWorld tc t)) = mkWorld tc (t ++ d) /\
    k <= length cs /\
    submissions d = requests (firstn k cs) /\
    match fst (invoke_all remote cs (mkWorld tc t)) with
    | inr rs =>
        k = length cs /\ length rs = length cs /\
        length (requests cs) = length cs
    | inl e => stopped_by remote cs e
    end.
Proof.
  induction cs as [|mc rest IH]; intros t.
  - exists [], 0. cbn. rewrite app_nil_r. repeat split. lia.
  - pose proof (invoke_cases mc tc t) as Hc.
    rewrite invoke_all_cons.
    destruct mc as [m c]. cbn [snd] in Hc.
    destruct (request_of c) as [[args ep]|] eqn:Er.
    + destruct Hc as (d0 & Hd0 & Hrun). cbn [fst snd] in Hrun. rewrite Hrun.
      destruct (deliver (remote (handle_of tc) t ep args)) as [e|v] eqn:Ed.
      * exists (Submit args ep :: d0), 1. cbn [fst snd].
        split; [reflexivity|]. split; [cbn; lia|].
        split; [cbn; rewrite Er, Hd0; reflexivity|].
        right. destruct (deliver_raised _ _ Ed) as (msg & Hm & ->).
        do 5 eexists. split; [exact Hm | reflexivity].
      * destruct (IH (t ++ Submit args ep :: d0))
          as (d1 & k1 & Hw & Hk & Hs & Hres).
        exists ((Submit args ep :: d0) ++ d1), (S k1).
        destruct (invoke_all remote rest (mkWorld tc (t ++ Submit args ep :: d0)))
          as [[e|rs] w'] eqn:Erun; cbn [fst snd] in *; subst w'.
        -- split; [rewrite app_assoc; reflexivity|]. split; [cbn [length]; lia|].
           split; [rewrite submissions_app; cbn; rewrite Er, Hd0, Hs; reflexivity|].
           destruct Hres as [(mc' & Hin & Hn)|Hr].
           ++ left. exists mc'. split; [right; exact Hin | exact Hn].
           ++ right. exact Hr.
        -- split; [rewrite app_assoc; reflexivity|]. split; [cbn [length]; lia|].
           split; [rewrite submissions_app; cbn; rewrite Er, Hd0, Hs; reflexivity|].
           destruct Hres as (-> & Hl & Hq). cbn. rewrite Er. cbn. auto.
    + destruct Hc as (e & Hrun). rewrite Hrun.
      exists [], 0. cbn [fst snd]. rewrite app_nil_r.
      split; [reflexivity|]. split; [cbn; lia|]. split; [reflexivity|].
      left. exists (m, c). split; [left; reflexivity | exact Er].
Qed.

End SequenceRuns.

Lemma well_typed_has_request (c : call) :
  well_typed (create_signature c) = true -> request_of c <> None.
Proof.
  intros H. destruct (well_typed_members _ H) as (pt & lm & Hp & Hl).
  unfold request_of. rewrite Hp, Hl. discriminate.
Qed.


(** X7: when the service answers every request, any number of calls on
    members of the enumerations, blocking and suspending mixed, all return:
    there are as many results as calls and as many requests as calls, the
    requests being those of the calls in order. *)
Theorem calls_in_sequence_all_return
    (remote : GradioClient -> list event -> string -> list pyval -> outcome)
    (cs : list (method * call)) (tc : TextCompletion) (t : list event) :
  (forall h t' a args msg, remote h t' a args <> Raised msg) ->
  Forall (fun mc => well_typed (create_signature (snd mc)) = true) cs ->
  exists rs : list pyval,
    result (invoke_all remote cs) tc t = inr rs /\
    length rs = length cs /\
    submissions (emitted (invoke_all remote cs) tc t) = requests cs /\
    length (requests cs) = length cs.
Proof.
  intros Hremote Hcs.
  destruct (invoke_all_run remote tc cs t) as (d & k & Hw & Hk & Hs & Hres).
  rewrite (emitted_app (invoke_all remote cs) tc t d) by (rewrite Hw; reflexivity).
  unfold result.
  destruct (fst (invoke_all remote cs (mkWorld tc t))) as [e|rs].
  - exfalso. destruct Hres as [(mc & Hin & Hn)|(h & t' & a & args & msg & Hm & _)].
    + rewrite Forall_forall in Hcs.
      exact (well_typed_has_request _ (Hcs mc Hin) Hn).
    + exact (Hremote _ _ _ _ _ Hm).
  - destruct Hres as (-> & Hl & Hq). rewrite firstn_all in Hs.
    exists rs. auto.
Qed.

(** A blocking call followed by a suspending one. *)
Lemma calls_in_sequence_all_return_witness :
  exists rs : list pyval,
    result
      (invoke_all sample_remote
         [(Blocking, hello_call); (Suspending, only_prompt (PyStr "Hi"))])
      sample_completion [] = inr rs /\
    length rs = 2.
Proof.
  destruct (calls_in_sequence_all_return sample_remote
              [(Blocking, hello_call); (Suspending, only_prompt (PyStr "Hi"))]
              sample_completion [])
    as (rs & Hr & Hl & _).
  - intros h t' a args msg. discriminate.
  - repeat constructor.
  - exists rs. split; [exact Hr | exact Hl].
Defined.

(** ** Building a client *)

Lemma nth_error_at_length (s r : store) (o : object) :
  nth_error (s ++ o :: r) (length s) = Some o.
Proof. induction s as [|x s IH]; [reflexivity | exact IH]. Qed.

Lemma update_at_length (s r : store) (o o' : object) :
  update (length s) o' (s ++ o :: r) = s ++ o' :: r.
Proof.
  induction s as [|x s IH]; [reflexivity|]. cbn. rewrite IH. reflexivity.
Qed.

Lemma setattr_at_length (s r : store) (o : object) (name : string) (v : slot) :
  setattr (length s) name v (s ++ o :: r) =
  s ++ mkObject (class_of o) (set_attribute name v (attributes o)) :: r.
Proof.
  unfold setattr. rewrite nth_error_at_length. apply update_at_length.
Qed.

Lemma getattr_at_length (s r : store) (o : object) (name : string) :
  getattr (length s) name (s ++ o :: r) = get_attribute name (attributes o).
Proof. unfold getattr. rewrite nth_error_at_length. reflexivity. Qed.

Lemma getattr_after_length (s : store) (x y : object) (name : string) :
  getattr (S (length s)) name (s ++ [x; y]) = get_attribute name (attributes y).
Proof.
  unfold getattr.
  replace (nth_error (s ++ [x; y]) (S (length s))) with (Some y);
    [reflexivity|].
  induction s as [|z s IH]; [reflexivity | exact IH].
Qed.

Lemma nth_error_before (s r : store) (i : nat) :
  i < length s -> nth_error (s ++ r) i = nth_error s i.
Proof. intros H. apply nth_error_app1. exact H. Qed.

Section Built.

Variable connects : string -> option string -> bool.

(** The store a successful construction leaves: the two new instances after
    everything that was there. *)
Lemma Client_new_store (url : string) (tok : option string) (s : store) :
  connects url tok = true ->
  Client_new connects url tok s =
    (inr (length s),
     s ++ [mkObject ClientClass
             [("_client", Handle (mkGradioClient url tok false));
              ("_text_completion", Ref (S (length s)))];
           mkObject TextCompletionClass [("_client", Ref (length s))]]).
Proof.
  intros Hc.
  unfold Client_new, Client__init__, TextCompletion__init__,
    gradio_client_Client, new.
  rewrite Hc. cbn zeta.
  rewrite (setattr_at_length s [] (mkObject ClientClass []) "_client").
  cbn [class_of attributes set_attribute].
  set (o1 := mkObject ClientClass
               [("_client", Handle (mkGradioClient url tok false))]).
  assert (Hlen : length (s ++ [o1]) = S (length s))
    by (rewrite length_app; cbn; lia).
  rewrite (setattr_at_length (s ++ [o1]) [] (mkObject TextCompletionClass [])
             "_client").
  cbn [class_of attributes set_attribute].
  rewrite <- app_assoc. cbn [app].
  rewrite (setattr_at_length s _ o1 "_text_completion").
  rewrite Hlen. reflexivity.
Qed.

(** The store a failed construction leaves: the bare instance, which nothing
    refers to. *)
Lemma Client_new_failure (url : string) (tok : option string) (s : store) :
  connects url tok = false ->
  Client_new connects url tok s =
    (inl "connection failed", s ++ [mkObject ClientClass []]).
Proof.
  intros Hc. unfold Client_new, Client__init__, gradio_client_Client, new.
  rewrite Hc. reflexivity.
Qed.

End Built.



(** X9: when gradio cannot build the handle, the construction raises its
    error; no [TextCompletion] comes into being, the instance left behind has
    no attribute at all, and every instance that was in the store before is
    as it was. *)
Theorem failed_construction_builds_nothing
    (connects : string -> option string -> bool)
    (url : string) (tok : option string) (s : store) :
  connects url tok = false ->
  exists (err : string) (s' : store),
    Client_new connects url tok s = (inl err, s') /\
    (forall i o, nth_error s' i = Some o ->
                 class_of o = TextCompletionClass -> nth_error s i = Some o) /\
    (forall name, getattr (length s) name s' = None) /\
    (forall i, i < length s -> nth_error s' i = nth_error s i).
Proof.
  intros Hc. do 2 eexists.
  split; [apply Client_new_failure; exact Hc|].
  split; [|split].
  - intros i o Hi Hcls.
    destruct (Nat.lt_ge_cases i (length s)) as [Hlt|Hge].
    + rewrite nth_error_before in Hi by exact Hlt. exact Hi.
    + rewrite nth_error_app2 in Hi by exact Hge.
      destruct (i - length s) as [|j]; cbn in Hi.
      * injection Hi as <-. discriminate Hcls.
      * destruct j; discriminate Hi.
  - intros name. rewrite getattr_at_length. reflexivity.
  - intros i Hi. apply nth_error_before. exact Hi.
Qed.

(** A construction against an address that does not answer. *)
Lemma failed_construction_builds_nothing_witness :
  exists (err : string) (s' : store),
    Client_new (fun _ _ => false) "http://localhost:1" None [] = (inl err, s') /\
    Client_text_completion 0 s' = None.
Proof.
  destruct (failed_construction_builds_nothing (fun _ _ => false)
              "http://localhost:1" None [] eq_refl)
    as (err & s' & Hn & _ & Hg & _).
  exists err, s'. split; [exact Hn | exact (Hg "_text_completion")].
Defined.

(** X10: the instances a construction builds stand for the records the
    methods run on: the [TextCompletion] reached through the property
    [text_completion] of a client built from an address and a token is the
    record holding [Client_init] of that address and token, so every request
    it sends is answered by the service reached through that handle. *)
Theorem built_completion_uses_the_given_address
    (connects : string -> option string -> bool)
    (remote : GradioClient -> list event -> string -> list pyval -> outcome)
    (url : string) (tok : option string) (s : store)
    (c : call) (t : list event) (r : list pyval * string) :
  connects url tok = true ->
  request_of c = Some r ->
  exists (a b : nat) (s' : store) (tc : TextCompletion),
    Client_new connects url tok s = (inr a, s') /\
    Client_text_completion a s' = Some (Ref b) /\
    client_at a s' = Some (Client_init url tok) /\
    text_completion_at b s' = Some tc /\
    result text_completion (Client_init url tok) t = inr tc /\
    result (create remote c) tc t =
      deliver (remote (mkGradioClient url tok false) t (snd r) (fst r)) /\
    result (create_async remote c) tc t =
      deliver (remote (mkGradioClient url tok false) t (snd r) (fst r)).
Proof.
  intros Hc Hr.
  exists (length s), (S (length s)). eexists.
  exists (mkTextCompletion (Client_init url tok)).
  split; [apply Client_new_store; exact Hc|].
  split; [unfold Client_text_completion; rewrite getattr_at_length; reflexivity|].
  assert (Ha : client_at (length s)
                 (s ++ [mkObject ClientClass
                          [("_client", Handle (mkGradioClient url tok false));
                           ("_text_completion", Ref (S (length s)))];
                        mkObject TextCompletionClass [("_client", Ref (length s))]])
               = Some (Client_init url tok)).
  { unfold client_at. rewrite getattr_at_length. reflexivity. }
  split; [exact Ha|].
  split; [unfold text_completion_at; rewrite getattr_after_length; cbn;
          rewrite Ha; reflexivity|].
  split; [reflexivity|].
  rewrite create_result, create_async_result.
  unfold request_of in Hr. by_value_attrs c; try discriminate Hr.
  injection Hr as <-. split; reflexivity.
Qed.

(** A client for a local server, and the call [create(prompt="Hello",
    prompt_type=PromptType.INSTRUCT, temperature=0.5)]. *)
Lemma built_completion_uses_the_given_address_witness :
  exists (a b : nat) (s' : store) (tc : TextCompletion),
    Client_new (fun _ _ => true) "http://localhost:7860" None [] = (inr a, s') /\
    text_completion_at b s' = Some tc /\
    result (create sample_remote hello_call) tc [] = inr (PyStr "response").
Proof.
  destruct (built_completion_uses_the_given_address (fun _ _ => true)
              sample_remote "http://localhost:7860" None [] hello_call [] _
              eq_refl eq_refl)
    as (a & b & s' & tc & Hn & _ & _ & Ht & _ & Hr & _).
  exists a, b, s', tc. split; [exact Hn|]. split; [exact Ht | exact Hr].
Defined.




(** ** What is never sent *)

Lemma request_of_shape (c : call) (r : list pyval * string) :
  request_of c = Some r ->
  snd r = "/submit_nochat" /\ length (fst r) = 25 /\
  hidden_fields_fixed (fst r) /\ document_choice_all (fst r).
Proof.
  unfold request_of. by_value_attrs c; intros E; try discriminate E.
  injection E as <-. cbn. repeat split.
Qed.

Lemma requests_shape (cs : list (method * call)) :
  Forall
    (fun r => snd r = "/submit_nochat" /\ length (fst r) = 25 /\
              hidden_fields_fixed (fst r) /\ document_choice_all (fst r))
    (requests cs).
Proof.
  induction cs as [|[m c] rest IH]; [constructor|].
  cbn. destruct (request_of c) as [r|] eqn:E; [|exact IH].
  constructor; [exact (request_of_shape c r E) | exact IH].
Qed.

(** X12: whatever calls are made one after the other, through either method,
    with whatever values, and however the service answers or fails, every
    request that leaves goes to "/submit_nochat", carries 25 values, has the
    eight hidden fields at their constants and ends with the document choice
    ["All"]. *)
Theorem every_request_of_every_run_is_well_formed
    (remote : GradioClient -> list event -> string -> list pyval -> outcome)
    (cs : list (method * call)) (tc : TextCompletion) (t : list event) :
  Forall
    (fun r => snd r = "/submit_nochat" /\ length (fst r) = 25 /\
              hidden_fields_fixed (fst r) /\ document_choice_all (fst r))
    (submissions (emitted (invoke_all remote cs) tc t)).
Proof.
  destruct (invoke_all_run remote tc cs t) as (d & k & Hw & _ & Hs & _).
  rewrite (emitted_app (invoke_all remote cs) tc t d) by (rewrite Hw; reflexivity).
  rewrite Hs. apply requests_shape.
Qed.
